(** * waypoint-plugin-s3: builder, registry and platform components

    A shallow embedding of the plugin's Go code.  Every action function
    (build, push, deploy) is a straight-line sequence of calls into
    external packages (Docker client, Docker archive, AWS S3 manager, os,
    path/filepath, the Waypoint terminal UI).  The embedding keeps the
    code of the repository and takes the behaviour of the external
    packages from an environment record: each field says what the
    corresponding external call returns.  An action is run in a small
    monad that records the calls it makes, keeps the deferred calls of
    the Go function and stops at the first returned error or panic.

    The host passes the actions non-nil pointers (the configuration it
    got from [Config], the result of the previous action), so structs
    stand for the pointers to them.  The [context.Context] and the logger
    are passed through untouched and left out. *)

From Stdlib Require Import String List Bool PeanoNat Lia.
Import ListNotations.
Open Scope string_scope.
Open Scope list_scope.

(** ** Go values: errors, results, interface values, function bodies *)

Module Go.

(** google.golang.org/grpc/codes, the two codes the plugin uses. *)
Inductive Code := FailedPrecondition | Internal.

(** A Go [error] value.  [ExternalError] is an error produced inside an
    external package; [Errorf] is [fmt.Errorf(format, args...)] and
    [StatusErrorf] is [status.Errorf(code, format, args...)], both kept
    unformatted. *)
Inductive error :=
| ExternalError (msg : string)
| Errorf (format : string) (args : list fmtArg)
| StatusErrorf (c : Code) (format : string) (args : list fmtArg)
with fmtArg :=
| ArgString (s : string)
| ArgError (e : error).

(** The pair [(value, err)] returned by a fallible call. *)
Inductive result (A : Type) :=
| Value (a : A)
| Error (e : error).
Arguments Value {A} a.
Arguments Error {A} e.

(** The value a panic carries: an error passed to [panic], or a
    run-time error such as a nil dereference. *)
Inductive panicValue :=
| PanicError (e : error)
| RuntimeError (msg : string).

(** How a Go function returning a pointer and an [error] ends. *)
Inductive outcome (A : Type) :=
| Return (a : A)
| Fail (e : error)
| Panic (reason : panicValue).
Arguments Return {A} a.
Arguments Fail {A} e.
Arguments Panic {A} reason.

(** An [interface{}] argument seen through the type assertion
    to pointer-to-[T]: either that is its dynamic type, or it is not. *)
Inductive any (T : Type) :=
| Is (v : T)
| IsNot.
Arguments Is {T} v.
Arguments IsNot {T}.

Section Act.
Variable E : Type.

(** A piece of a running function body: the calls it has made, the
    calls it has registered with [defer] (most recent first), and how
    it ended. *)
Record act (A : Type) :=
  { trace : list E; deferred : list E; result_of : outcome A }.
Arguments trace {A} a.
Arguments deferred {A} a.
Arguments result_of {A} a.

Definition ret {A} (a : A) : act A :=
  {| trace := []; deferred := []; result_of := Return a |}.

(** Sequencing: the rest of the body runs only after a normal end. *)
Definition bind {A B} (m : act A) (k : A -> act B) : act B :=
  match result_of m with
  | Return a =>
      match k a with
      | {| trace := t; deferred := d; result_of := r |} =>
          {| trace := trace m ++ t; deferred := d ++ deferred m; result_of := r |}
      end
  | Fail e =>
      {| trace := trace m; deferred := deferred m; result_of := Fail e |}
  | Panic r =>
      {| trace := trace m; deferred := deferred m; result_of := Panic r |}
  end.

Definition fail {A} (e : error) : act A :=
  {| trace := []; deferred := []; result_of := Fail e |}.

Definition panic {A} (r : panicValue) : act A :=
  {| trace := []; deferred := []; result_of := Panic r |}.

Definition emit (e : E) : act unit :=
  {| trace := [e]; deferred := []; result_of := Return tt |}.

Definition defer (e : E) : act unit :=
  {| trace := []; deferred := [e]; result_of := Return tt |}.

(** [v, err := call(); if err != nil { return nil, wrap(err) }] *)
Definition try {A} (e : E) (r : result A) (wrap : error -> error) : act A :=
  {| trace := [e];
     deferred := [];
     result_of := match r with
                  | Value a => Return a
                  | Error err => Fail (wrap err)
                  end |}.

(** [err := call(); if err != nil { return nil, wrap(err) }] *)
Definition check (e : E) (r : option error) (wrap : error -> error) : act unit :=
  {| trace := [e];
     deferred := [];
     result_of := match r with
                  | None => Return tt
                  | Some err => Fail (wrap err)
                  end |}.

(** [call()] as a statement: whatever the call returns is dropped. *)
Definition discard {R} (e : E) (r : R) : act unit :=
  {| trace := [e]; deferred := []; result_of := Return tt |}.

(** A call to a function value whose body is [body]: the error it
    returns is a value for the caller, a panic keeps unwinding. *)
Definition invoke {A} (body : act A) : act (result A) :=
  {| trace := trace body;
     deferred := deferred body;
     result_of := match result_of body with
                  | Return a => Return (Value a)
                  | Fail e => Return (Error e)
                  | Panic r => Panic r
                  end |}.

(** Runs a whole function body; on the way out, by return or by panic,
    the deferred calls run last-in first-out. *)
Definition run {A} (body : act A) : list E * outcome A :=
  (trace body ++ deferred body, result_of body).
End Act.

Arguments trace {E A} a.
Arguments deferred {E A} a.
Arguments result_of {E A} a.
Arguments ret {E A} a.
Arguments bind {E A B} m k.
Arguments fail {E A} e.
Arguments panic {E A} r.
Arguments emit {E} e.
Arguments defer {E} e.
Arguments try {E A} e r wrap.
Arguments check {E} e r wrap.
Arguments discard {E R} e r.
Arguments invoke {E A} body.
Arguments run {E A} body.

(** An object returned by an external package and only passed on
    (a client, a reader, a response body). *)
Definition handle := nat.

End Go.

Export Go.

Declare Scope act_scope.
Delimit Scope act_scope with act.
Notation "x <- m ;; k" := (bind m (fun x => k))
  (at level 61, m at next level, right associativity) : act_scope.
Notation "m ;; k" := (bind m (fun _ => k))
  (at level 61, right associativity) : act_scope.
Open Scope act_scope.

(** ** Types of the external packages, as far as the plugin fills them in *)

(** github.com/hashicorp/waypoint-plugin-sdk/component *)
Module Component.
Record Source := { App : string; Path : string }.
End Component.

(** github.com/docker/docker/api/types *)
Module Types.
Record ImageBuildOptions :=
  { Dockerfile : string; Tags : list string; Remove : bool }.
Record ContainerRemoveOptions := { Force : bool }.
End Types.

(** github.com/docker/docker/api/types/container *)
Module Container.
Record Config := { Image : string; Cmd : list string; Tty : bool }.
End Container.

(** github.com/docker/docker/pkg/archive *)
Module Archive.
Record CopyInfo :=
  { Path : string; Exists : bool; IsDir : bool; RebaseName : string }.
End Archive.

(** ** package builder, the Docker-based builder *)

Module Builder.

Record BuildConfig :=
  { Source : string; OutputName : string; Dockerfile : string }.

Record Builder := { config : BuildConfig }.

(** Modelled from the spec: the result struct [Zip] is generated from
    builder/output.proto, which is not among the sources; it holds a
    single filesystem path, the only field [build] sets. *)
Record Zip := { Path : string }.

(** [func (b *Builder) ConfigSet(config interface{}) error] *)
Definition ConfigSet (b : Builder) (config : any BuildConfig) : option error :=
  match config with
  | Is _ => None
  | IsNot => Some (Errorf "expected *BuildConfig as parameter" [])
  end.

(** The [io.Writer] returned as stdout by [ui.OutputWriters]: an
    [*os.File] with its descriptor, or some other writer. *)
Inductive Writer :=
| OsFile (fd : nat)
| OtherWriter.

(** What the external calls of [build] return.  The Docker client
    methods take the client first. *)
Record Env :=
  { NewClientWithOpts : result handle;
    OutputWriters : result Writer;
    TarWithOptions : string -> result handle;
    ImageBuild : handle -> handle -> Types.ImageBuildOptions -> result handle;
    DisplayJSONMessagesStream : handle -> nat -> option error;
    ContainerCreate : handle -> Container.Config -> result string;
    CopyFromContainer : handle -> string -> string -> result (handle * bool);
    MkdirTemp : string -> string -> result string;
    CopyTo : handle -> Archive.CopyInfo -> string -> option error;
    ContainerRemove :
      handle -> string -> Types.ContainerRemoveOptions -> option error }.

(** The calls [build] makes, with their arguments ([ctx] left out; the
    getter [step.TermOutput()], evaluated as an argument of the streaming
    call, has no event of its own).  A step of the UI is named by the
    message it was added with. *)
Inductive event :=
| ui_StepGroup
| sg_Wait
| sg_Add (msg : string)
| step_Abort (msg : string)
| step_Done (msg : string)
| client_NewClientWithOpts
| ui_OutputWriters
| archive_TarWithOptions (srcPath : string)
| dockerClient_ImageBuild (buildCtx : handle) (opts : Types.ImageBuildOptions)
| resp_Body_Close (body : handle)
| jsonmessage_DisplayJSONMessagesStream (body : handle) (termFd : nat)
| dockerClient_ContainerCreate (cfg : Container.Config)
| dockerClient_CopyFromContainer (containerID : string) (srcPath : string)
| content_Close (content : handle)
| os_MkdirTemp (dir pattern : string)
| archive_CopyTo (content : handle) (srcInfo : Archive.CopyInfo) (dstPath : string)
| dockerClient_ContainerRemove
    (containerID : string) (opts : Types.ContainerRemoveOptions).

(** [func (b *Builder) build(ctx, src *component.Source, ui terminal.UI)],
    returning a [Zip] pointer and an [error]. *)
Definition build (b : Builder) (src : Component.Source) (w : Env) : act event Zip :=
  emit ui_StepGroup ;;
  defer sg_Wait ;;
  dockerClient <- try client_NewClientWithOpts (NewClientWithOpts w)
    (fun err => StatusErrorf FailedPrecondition
                  "unable to create Docker client: %s" [ArgError err]) ;;

  let dockerfile := Dockerfile (config b) in
  let dockerfile := if (dockerfile =? "")%string then "Dockerfile" else dockerfile in

  (* Build image *)
  emit (sg_Add "Building image...") ;;
  defer (step_Abort "Building image...") ;;

  stdout <- try ui_OutputWriters (OutputWriters w) (fun err => err) ;;

  let imageTag := ("waypoint.local/" ++ Component.App src)%string in

  let opts :=
    {| Types.Dockerfile := dockerfile;
       Types.Tags := [imageTag];
       Types.Remove := true |} in

  buildCtx <- try (archive_TarWithOptions (Component.Path src))
    (TarWithOptions w (Component.Path src)) (fun err => err) ;;

  resp <- try (dockerClient_ImageBuild buildCtx opts)
    (ImageBuild w dockerClient buildCtx opts) (fun err => err) ;;
  defer (resp_Body_Close resp) ;;

  let termFd := match stdout with OsFile fd => fd | OtherWriter => 0 end in

  check (jsonmessage_DisplayJSONMessagesStream resp termFd)
    (DisplayJSONMessagesStream w resp termFd)
    (fun err => StatusErrorf Internal
                  "unable to stream build logs to the terminal: %s" [ArgError err]) ;;

  emit (step_Done "Building image...") ;;

  (* Run container *)
  emit (sg_Add "Running container...") ;;
  defer (step_Abort "Running container...") ;;

  let containerConfig :=
    {| Container.Image := imageTag;
       Container.Cmd := ["/bin/sh"];
       Container.Tty := false |} in
  containerID <- try (dockerClient_ContainerCreate containerConfig)
    (ContainerCreate w dockerClient containerConfig)
    (fun err => StatusErrorf FailedPrecondition
                  "unable to create Docker container: %s" [ArgError err]) ;;

  emit (step_Done "Running container...") ;;

  (* Extract files from container *)
  emit (sg_Add "Extracing assets...") ;;
  defer (step_Abort "Extracing assets...") ;;

  copied <- try (dockerClient_CopyFromContainer containerID (Source (config b)))
    (CopyFromContainer w dockerClient containerID (Source (config b)))
    (fun err => StatusErrorf FailedPrecondition
                  "unable to copy assets from Docker container: %s" [ArgError err]) ;;
  let content := fst copied in
  let statModeIsDir := snd copied in
  defer (content_Close content) ;;

  let srcInfo :=
    {| Archive.Path := Source (config b);
       Archive.Exists := true;
       Archive.IsDir := statModeIsDir;
       Archive.RebaseName := "" |} in

  destDir <- try (os_MkdirTemp "" "waypoint-plugin-s3")
    (MkdirTemp w "" "waypoint-plugin-s3")
    (fun err => StatusErrorf FailedPrecondition
                  "unable to create tmp directory: %s" [ArgError err]) ;;

  discard (archive_CopyTo content srcInfo destDir)
    (CopyTo w content srcInfo destDir) ;;

  emit (step_Done "Extracing assets...") ;;

  (* Kill container *)
  emit (sg_Add "Shutting down container...") ;;
  defer (step_Abort "Shutting down container...") ;;

  let removeOpts := {| Types.Force := true |} in
  discard (dockerClient_ContainerRemove containerID removeOpts)
    (ContainerRemove w dockerClient containerID removeOpts) ;;

  emit (step_Done "Shutting down container...") ;;

  ret {| Path := destDir |}.

(** The five steps of the build that are calls to the Docker engine. *)
Inductive step := CreateClient | BuildImage | RunContainer | CopyFilesOut | RemoveContainer.

Definition step_of (e : event) : option step :=
  match e with
  | client_NewClientWithOpts => Some CreateClient
  | dockerClient_ImageBuild _ _ => Some BuildImage
  | dockerClient_ContainerCreate _ => Some RunContainer
  | dockerClient_CopyFromContainer _ _ => Some CopyFilesOut
  | dockerClient_ContainerRemove _ _ => Some RemoveContainer
  | _ => None
  end.

Fixpoint steps (tr : list event) : list step :=
  match tr with
  | [] => []
  | e :: tr' =>
      match step_of e with
      | Some s => s :: steps tr'
      | None => steps tr'
      end
  end.

Definition pipeline : list step :=
  [CreateClient; BuildImage; RunContainer; CopyFilesOut; RemoveContainer].

End Builder.
(** ** package builder, the variant that returns a [Binary] *)

Module BinaryBuilder.

Record BuildConfig := { OutputName : string; Source : string }.

Record Builder := { config : BuildConfig }.

(** Modelled from the spec: the result struct [Binary] is generated from
    builder/output.proto, which is not among the sources; [build] returns
    it empty. *)
Record Binary := EmptyBinary { }.

(** What [os.Stat] returns for a path; the [FileInfo] is not used. *)
Record Env := { Stat : string -> result unit }.

(** [func (b *Builder) ConfigSet(config interface{}) error] *)
Definition ConfigSet (b : Builder) (w : Env) (config : any BuildConfig) : option error :=
  match config with
  | IsNot => Some (Errorf "expected *BuildConfig as parameter" [])
  | Is c =>
      if (OutputName c =? "")%string then
        Some (Errorf "output_name must be valid" [])
      else
        match Stat w (Source c) with
        | Error _ => Some (Errorf "source must be valid directory" [])
        | Value _ => None
        end
  end.

Inductive event :=
| ui_Status
| u_Close
| u_Update (msg : string).

(** [func (b *Builder) build(ctx, ui terminal.UI)] *)
Definition build (b : Builder) : act event Binary :=
  emit ui_Status ;;
  defer u_Close ;;
  emit (u_Update "Building application") ;;
  ret EmptyBinary.

End BinaryBuilder.

(** ** package registry *)

Module Registry.

Record RegistryConfig := { Name : string; Version : string }.

Record Registry := { config : RegistryConfig }.

(** Modelled from the spec: the result structs [Zip] and [AccessInfo] are
    generated from registry/output.proto, which is not among the sources;
    [Zip] holds a single filesystem path, [AccessInfo] is empty. *)
Record Zip := { Path : string }.
Record AccessInfo := EmptyAccessInfo { }.

(** [func (r *Registry) ConfigSet(config interface{}) error] *)
Definition ConfigSet (r : Registry) (config : any RegistryConfig) : option error :=
  match config with
  | IsNot => Some (Errorf "expected *RegisterConfig as parameter" [])
  | Is c =>
      if (Name c =? "")%string then
        Some (Errorf "name must be set to a valid directory" [])
      else None
  end.

(** [func (r *Registry) accessInfo()] *)
Definition accessInfo (r : Registry) : result AccessInfo := Value EmptyAccessInfo.

Inductive event :=
| ui_Status
| u_Close
| u_Update (msg : string).

(** [func (r *Registry) push(ctx, ui terminal.UI, binary *builder.Zip)] *)
Definition push (r : Registry) (binary : Builder.Zip) : act event Zip :=
  emit ui_Status ;;
  defer u_Close ;;
  emit (u_Update "Pushing binary to registry") ;;
  ret {| Path := Builder.Path binary |}.

End Registry.

(** ** package os, as far as the walk callback uses it *)

Module Os.
(** [os.FileInfo]: the two methods the callback calls. *)
Record FileInfo := { IsDir : bool; Size : nat }.

(** An open [*os.File]: what [f.Stat()] returns, and the bytes the
    system delivers to one [f.Read] into a buffer of the given length. *)
Record File := { Stat : result FileInfo; Read : nat -> list Byte.byte }.
End Os.

(** ** package platform *)

Module Platform.

Record DeployConfig := { Region : string; BucketName : string }.

Record Platform := { config : DeployConfig }.

(** Modelled from the spec: the result struct [Deployment] is generated
    from platform/output.proto, which is not among the sources; [deploy]
    returns it empty. *)
Record Deployment := EmptyDeployment { }.

(** [func (p *Platform) ConfigSet(config interface{}) error] *)
Definition ConfigSet (p : Platform) (config : any DeployConfig) : option error :=
  match config with
  | IsNot => Some (Errorf "expected *DeployConfig as parameter" [])
  | Is c =>
      if (Region c =? "")%string then
        Some (Errorf "region must be set to a valid AWS region" [])
      else if (BucketName c =? "")%string then
        Some (Errorf "bucket_name must be set to a valid S3 bucket" [])
      else None
  end.

(** [s3manager.UploadInput], the fields [deploy] sets, and
    [s3manager.BatchUploadObject] around it. *)
Record UploadInput :=
  { Key : string;
    Bucket : string;
    Body : list Byte.byte;
    ACL : string;
    ContentType : string }.

Record BatchUploadObject := { Object : UploadInput }.

(** What the external calls of [deploy] return.  [Walk root] lists the
    calls [filepath.Walk] makes to its callback, in order, for as long
    as the callback returns nil: the path and the [err] argument. *)
Record Env :=
  { NewSession : string -> result handle;
    Walk : string -> list (string * option error);
    Stat : string -> result Os.FileInfo;
    Rel : string -> string -> result string;
    Open : string -> result Os.File;
    DetectContentType : list Byte.byte -> string;
    UploadWithIterator : handle -> list BatchUploadObject -> option error }.

Inductive event :=
| ui_Status
| u_Close
| u_Update (msg : string)
| session_NewSession (region : string)
| s3manager_NewUploader (sess : handle)
| filepath_Walk (root : string)
| os_Stat (path : string)
| filepath_Rel (basepath targpath : string)
| os_Open (path : string)
| f_Stat (path : string)
| f_Read (path : string) (len : nat)
| uploader_UploadWithIterator (objects : list BatchUploadObject).

(** [session.Must(sess, err)]: panics with [err] when it is not nil. *)
Definition Must {A} (r : result A) : act event A :=
  match r with
  | Value sess => ret sess
  | Error err => panic (PanicError err)
  end.

(** [buffer := make([]byte, size); f.Read(buffer)]: the bytes delivered
    by the read, then zeros, [size] bytes in all. *)
Definition read_buffer (f : Os.File) (size : nat) : list Byte.byte :=
  firstn size (Os.Read f size ++ repeat Byte.x00 size).

(** The function literal passed to [filepath.Walk].  It appends to the
    captured [objects]; here it takes the slice and returns the new one. *)
Definition walkFn (b : Platform) (w : Env) (zip : Registry.Zip)
    (objects : list BatchUploadObject) (path : string) (err : option error)
  : act event (list BatchUploadObject) :=
  match err with
  | Some err => fail err
  | None =>
      stat <- try (os_Stat path) (Stat w path) (fun err => err) ;;
      if Os.IsDir stat then ret objects
      else
        relativePath <- try (filepath_Rel (Registry.Path zip) path)
          (Rel w (Registry.Path zip) path) (fun err => err) ;;
        f <- try (os_Open path) (Open w path)
          (fun err => Errorf "failed to open file %q, %v"
                        [ArgString path; ArgError err]) ;;
        emit (f_Stat path) ;;
        size <- match Os.Stat f with
                | Value fileInfo => ret (Os.Size fileInfo)
                | Error _ =>
                    panic (RuntimeError
                             "invalid memory address or nil pointer dereference")
                end ;;
        emit (f_Read path size) ;;
        let buffer := read_buffer f size in
        ret (objects ++
             [ {| Object :=
                    {| Key := relativePath;
                       Bucket := BucketName (config b);
                       Body := buffer;
                       ACL := "public-read";
                       ContentType := DetectContentType w buffer |} |} ])
  end.

(** [filepath.Walk] over the calls it has to make: it stops at the first
    error the callback returns and returns that error. *)
Fixpoint walk
    (fn : list BatchUploadObject -> string -> option error ->
          act event (list BatchUploadObject))
    (visits : list (string * option error))
    (objects : list BatchUploadObject)
  : act event (list BatchUploadObject * option error) :=
  match visits with
  | [] => ret (objects, None)
  | (path, err) :: rest =>
      r <- invoke (fn objects path err) ;;
      match r with
      | Value objects' => walk fn rest objects'
      | Error e => ret (objects, Some e)
      end
  end.

(** [func (b *Platform) deploy(ctx, ui, log, dcr, zip *registry.Zip)] *)
Definition deploy (b : Platform) (zip : Registry.Zip) (w : Env) : act event Deployment :=
  emit ui_Status ;;
  defer u_Close ;;
  emit (u_Update "Deploy application") ;;
  emit (session_NewSession (Region (config b))) ;;
  sess <- Must (NewSession w (Region (config b))) ;;

  emit (s3manager_NewUploader sess) ;;
  let uploader := sess in

  let objects := [] in

  emit (filepath_Walk (Registry.Path zip)) ;;
  walked <- walk (walkFn b w zip) (Walk w (Registry.Path zip)) objects ;;
  let objects := fst walked in
  match snd walked with
  | Some err => fail err
  | None =>
      check (uploader_UploadWithIterator objects)
        (UploadWithIterator w uploader objects) (fun err => err) ;;
      emit (u_Update "Application deployed") ;;
      ret EmptyDeployment
  end.

(** The collections handed to the batch uploader, one per call. *)
Fixpoint uploads (tr : list event) : list (list BatchUploadObject) :=
  match tr with
  | [] => []
  | uploader_UploadWithIterator objects :: tr' => objects :: uploads tr'
  | _ :: tr' => uploads tr'
  end.

(** The paths the walk reaches for which [os.Stat] succeeds and reports
    something that is not a directory: the files [deploy] uploads. *)
Fixpoint files (w : Env) (visits : list (string * option error)) : list string :=
  match visits with
  | [] => []
  | (path, _) :: rest =>
      match Stat w path with
      | Value stat => if Os.IsDir stat then files w rest else path :: files w rest
      | Error _ => files w rest
      end
  end.

(** [o] is the upload object [walkFn] builds for the file at [path]. *)
Definition object_for (b : Platform) (w : Env) (zip : Registry.Zip)
    (path : string) (o : BatchUploadObject) : Prop :=
  exists relativePath f fileInfo,
    Rel w (Registry.Path zip) path = Value relativePath /\
    Open w path = Value f /\
    Os.Stat f = Value fileInfo /\
    Object o =
      {| Key := relativePath;
         Bucket := BucketName (config b);
         Body := read_buffer f (Os.Size fileInfo);
         ACL := "public-read";
         ContentType := DetectContentType w (read_buffer f (Os.Size fileInfo)) |}.

(** What [filepath.Walk] returns to [deploy]: the callback's error, if
    any, and the objects appended by then. *)
Definition walk_result (b : Platform) (zip : Registry.Zip) (w : Env)
  : outcome (list BatchUploadObject * option error) :=
  result_of (walk (walkFn b w zip) (Walk w (Registry.Path zip)) []).

End Platform.

(** ** Concrete hosts and inputs *)

Module Samples.

Definition site_builder : Builder.Builder :=
  {| Builder.config :=
       {| Builder.Source := "/app/dist";
          Builder.OutputName := "";
          Builder.Dockerfile := "" |} |}.

Definition web : Component.Source :=
  {| Component.App := "web"; Component.Path := "." |}.

(** A Docker host on which every call succeeds. *)
Definition sunny : Builder.Env :=
  {| Builder.NewClientWithOpts := Value 1;
     Builder.OutputWriters := Value (Builder.OsFile 1);
     Builder.TarWithOptions := fun _ => Value 2;
     Builder.ImageBuild := fun _ _ _ => Value 3;
     Builder.DisplayJSONMessagesStream := fun _ _ => None;
     Builder.ContainerCreate := fun _ _ => Value "c0ffee";
     Builder.CopyFromContainer := fun _ _ _ => Value (4, true);
     Builder.MkdirTemp := fun _ _ => Value "/tmp/waypoint-plugin-s3123";
     Builder.CopyTo := fun _ _ _ => None;
     Builder.ContainerRemove := fun _ _ _ => None |}.


(** The same host, on which unpacking the copied archive fails. *)
Definition unpack_fails : Builder.Env :=
  {| Builder.NewClientWithOpts := Value 1;
     Builder.OutputWriters := Value (Builder.OsFile 1);
     Builder.TarWithOptions := fun _ => Value 2;
     Builder.ImageBuild := fun _ _ _ => Value 3;
     Builder.DisplayJSONMessagesStream := fun _ _ => None;
     Builder.ContainerCreate := fun _ _ => Value "c0ffee";
     Builder.CopyFromContainer := fun _ _ _ => Value (4, true);
     Builder.MkdirTemp := fun _ _ => Value "/tmp/waypoint-plugin-s3123";
     Builder.CopyTo := fun _ _ _ => Some (ExternalError "no space left on device");
     Builder.ContainerRemove := fun _ _ _ => None |}.

Definition bucket : Platform.Platform :=
  {| Platform.config :=
       {| Platform.Region := "eu-west-1"; Platform.BucketName := "my-site" |} |}.

Definition artifact : Registry.Zip := {| Registry.Path := "/tmp/site" |}.

Definition hi : list Byte.byte := [Byte.x68; Byte.x69].

(** A host where the artifact is a directory holding [css/main.css] and
    [index.html], every file reads as [hi], and every call succeeds. *)
Definition site : Platform.Env :=
  {| Platform.NewSession := fun _ => Value 7;
     Platform.Walk := fun _ =>
       [("/tmp/site", None); ("/tmp/site/css", None);
        ("/tmp/site/css/main.css", None); ("/tmp/site/index.html", None)];
     Platform.Stat := fun path =>
       if ((path =? "/tmp/site") || (path =? "/tmp/site/css"))%string
       then Value {| Os.IsDir := true; Os.Size := 4096 |}
       else Value {| Os.IsDir := false; Os.Size := 2 |};
     Platform.Rel := fun base targ =>
       if (targ =? base)%string then Value "."
       else Value (substring (S (String.length base))
                     (String.length targ - S (String.length base)) targ);
     Platform.Open := fun _ =>
       Value {| Os.Stat := Value {| Os.IsDir := false; Os.Size := 2 |};
                Os.Read := fun n => firstn n hi |};
     Platform.DetectContentType := fun _ => "text/plain; charset=utf-8";
     Platform.UploadWithIterator := fun _ _ => None |}.

(** The same host, where reading the directory [css] is refused. *)
Definition unreadable : Platform.Env :=
  {| Platform.NewSession := Platform.NewSession site;
     Platform.Walk := fun _ =>
       [("/tmp/site", None);
        ("/tmp/site/css", Some (ExternalError "open /tmp/site/css: permission denied"))];
     Platform.Stat := Platform.Stat site;
     Platform.Rel := Platform.Rel site;
     Platform.Open := Platform.Open site;
     Platform.DetectContentType := Platform.DetectContentType site;
     Platform.UploadWithIterator := Platform.UploadWithIterator site |}.

End Samples.

(** ** Hosts that differ from another in a few answers *)

Module Hosts.

(** The Docker host [w] with other answers to [archive.CopyTo] and
    [ContainerRemove]. *)
Definition with_unpack (w : Builder.Env)
    (copyTo : handle -> Archive.CopyInfo -> string -> option error)
    (remove : handle -> string -> Types.ContainerRemoveOptions -> option error)
  : Builder.Env :=
  {| Builder.NewClientWithOpts := Builder.NewClientWithOpts w;
     Builder.OutputWriters := Builder.OutputWriters w;
     Builder.TarWithOptions := Builder.TarWithOptions w;
     Builder.ImageBuild := Builder.ImageBuild w;
     Builder.DisplayJSONMessagesStream := Builder.DisplayJSONMessagesStream w;
     Builder.ContainerCreate := Builder.ContainerCreate w;
     Builder.CopyFromContainer := Builder.CopyFromContainer w;
     Builder.MkdirTemp := Builder.MkdirTemp w;
     Builder.CopyTo := copyTo;
     Builder.ContainerRemove := remove |}.

(** A Docker host on which everything succeeds up to the copy out of the
    container, which is refused. *)
Definition copy_refused : Builder.Env :=
  {| Builder.NewClientWithOpts := Value 1;
     Builder.OutputWriters := Value Builder.OtherWriter;
     Builder.TarWithOptions := fun _ => Value 2;
     Builder.ImageBuild := fun _ _ _ => Value 3;
     Builder.DisplayJSONMessagesStream := fun _ _ => None;
     Builder.ContainerCreate := fun _ _ => Value "c0ffee";
     Builder.CopyFromContainer := fun _ _ _ =>
       Error (ExternalError "Could not find the file /app/dist in container c0ffee");
     Builder.MkdirTemp := fun _ _ => Value "/tmp/waypoint-plugin-s3123";
     Builder.CopyTo := fun _ _ _ => None;
     Builder.ContainerRemove := fun _ _ _ => None |}.

(** The host [Samples.site], where an opened file cannot be stat'ed. *)
Definition stat_refused : Platform.Env :=
  {| Platform.NewSession := Platform.NewSession Samples.site;
     Platform.Walk := Platform.Walk Samples.site;
     Platform.Stat := Platform.Stat Samples.site;
     Platform.Rel := Platform.Rel Samples.site;
     Platform.Open := fun _ =>
       Value {| Os.Stat := Error (ExternalError "stat: input/output error");
                Os.Read := fun n => firstn n Samples.hi |};
     Platform.DetectContentType := Platform.DetectContentType Samples.site;
     Platform.UploadWithIterator := Platform.UploadWithIterator Samples.site |}.


(** The host [Samples.site], where the artifact is a directory tree
    without any file. *)
Definition bare : Platform.Env :=
  {| Platform.NewSession := Platform.NewSession Samples.site;
     Platform.Walk := fun _ => [("/tmp/site", None); ("/tmp/site/css", None)];
     Platform.Stat := Platform.Stat Samples.site;
     Platform.Rel := Platform.Rel Samples.site;
     Platform.Open := Platform.Open Samples.site;
     Platform.DetectContentType := Platform.DetectContentType Samples.site;
     Platform.UploadWithIterator := Platform.UploadWithIterator Samples.site |}.


(** The calls the walk callback makes: on files and paths only. *)
Definition file_call (e : Platform.event) : bool :=
  match e with
  | Platform.os_Stat _
  | Platform.filepath_Rel _ _
  | Platform.os_Open _
  | Platform.f_Stat _
  | Platform.f_Read _ _ => true
  | _ => false
  end.

End Hosts.

(** * Properties *)

Import Samples.

(** ** The Docker-based builder *)

Ltac env_case :=
  match goal with
  | |- context [match ?r with Value _ => _ | Error _ => _ end] =>
      destruct r eqn:?
  | |- context [match ?r with Some _ => _ | None => _ end] =>
      destruct r eqn:?
  end.

Lemma steps_app (l1 l2 : list Builder.event) :
  Builder.steps (l1 ++ l2) = Builder.steps l1 ++ Builder.steps l2.
Proof.
  induction l1 as [|e l1 IH]; simpl; [reflexivity|].
  destruct (Builder.step_of e); simpl; rewrite IH; reflexivity.
Qed.

(** Runs [build] on an arbitrary host, one case per possible answer of
    each external call. *)
Ltac build_cases :=
  unfold run, Builder.build, bind, try, check, discard, emit, defer, ret;
  cbn -[append];
  repeat (env_case; cbn -[append]).

Ltac in_trace H :=
  cbn -[append] in H;
  repeat (destruct H as [H | H]; try discriminate H);
  try contradiction.

(** C2.  On every host the calls [build] makes to the Docker engine are
    an initial part of the sequence create client, build image, run
    container (the [ContainerCreate] call), copy files out, remove
    container: they come in that order and none is made twice.  A build
    that returns a result has made all five. *)
Theorem build_calls_in_pipeline_order
    (b : Builder.Builder) (src : Component.Source) (w : Builder.Env) :
  let out := run (Builder.build b src w) in
  (exists rest, Builder.pipeline = Builder.steps (fst out) ++ rest) /\
  NoDup (Builder.steps (fst out)) /\
  (forall zip, snd out = Return zip -> Builder.steps (fst out) = Builder.pipeline).
Proof.
  build_cases.
  all: split; [eexists; reflexivity | split].
  all: try (intros zip H; first [discriminate H | reflexivity]).
  all: repeat constructor; simpl; intuition discriminate.
Qed.

Lemma build_calls_in_pipeline_order_witness :
  Builder.steps (fst (run (Builder.build site_builder web sunny))) = Builder.pipeline.
Proof.
  apply (proj2 (proj2 (build_calls_in_pipeline_order site_builder web sunny))
           {| Builder.Path := "/tmp/waypoint-plugin-s3123" |}).
  reflexivity.
Defined.

(** C10.  Whenever [build] calls [ImageBuild], the options name the file
    "Dockerfile" if the configured [Dockerfile] is empty, and the
    configured value otherwise. *)
Theorem build_dockerfile_default
    (b : Builder.Builder) (src : Component.Source) (w : Builder.Env)
    (buildCtx : handle) (opts : Types.ImageBuildOptions) :
  In (Builder.dockerClient_ImageBuild buildCtx opts)
     (fst (run (Builder.build b src w))) ->
  (Builder.Dockerfile (Builder.config b) = "" ->
   Types.Dockerfile opts = "Dockerfile") /\
  (Builder.Dockerfile (Builder.config b) <> "" ->
   Types.Dockerfile opts = Builder.Dockerfile (Builder.config b)).
Proof.
  build_cases; intros H; in_trace H.
  all: injection H as _ <-; cbn.
  all: destruct (String.eqb_spec (Builder.Dockerfile (Builder.config b)) "");
    split; intros; congruence.
Qed.

Lemma build_dockerfile_default_witness :
  Types.Dockerfile
    {| Types.Dockerfile := "Dockerfile";
       Types.Tags := ["waypoint.local/web"];
       Types.Remove := true |} = "Dockerfile".
Proof.
  refine (proj1 (build_dockerfile_default site_builder web sunny 2 _ _) _).
  - cbn. intuition.
  - reflexivity.
Defined.

(** ** The platform: walking the artifact and uploading it *)

Section Deploy.
Variables (b : Platform.Platform) (w : Platform.Env) (zip : Registry.Zip).

Lemma uploads_app (l1 l2 : list Platform.event) :
  Platform.uploads (l1 ++ l2) = Platform.uploads l1 ++ Platform.uploads l2.
Proof.
  induction l1 as [|e l1 IH]; [reflexivity|].
  destruct e; simpl; rewrite ?IH; reflexivity.
Qed.

(** One call of the callback: it uploads nothing and defers nothing; if
    it returns nil, the path is a directory and the slice is unchanged,
    or it is a file and its object has been appended. *)
Lemma walkFn_spec objects path err :
  let m := Platform.walkFn b w zip objects path err in
  Platform.uploads (trace m) = [] /\
  deferred m = [] /\
  forall objects', result_of m = Return objects' ->
    err = None /\
    exists stat, Platform.Stat w path = Value stat /\
      if Os.IsDir stat then objects' = objects
      else exists o, objects' = objects ++ [o] /\
                     Platform.object_for b w zip path o.
Proof.
  unfold Platform.walkFn, bind, try, emit, ret, fail, panic.
  destruct err as [e|]; cbn; [intuition discriminate|].
  destruct (Platform.Stat w path) as [stat|e] eqn:Hstat; cbn;
    [|intuition discriminate].
  destruct (Os.IsDir stat) eqn:Hdir; cbn.
  { do 2 (split; [reflexivity|]). intros ? [= <-]. split; [reflexivity|].
    exists stat. rewrite Hdir. auto. }
  destruct (Platform.Rel w (Registry.Path zip) path) as [rel|e] eqn:Hrel; cbn;
    [|intuition discriminate].
  destruct (Platform.Open w path) as [f|e] eqn:Hopen; cbn;
    [|intuition discriminate].
  destruct (Os.Stat f) as [fileInfo|e] eqn:Hfstat; cbn;
    [|intuition discriminate].
  do 2 (split; [reflexivity|]). intros ? [= <-]. split; [reflexivity|].
  exists stat. rewrite Hdir. split; [reflexivity|].
  eexists. split; [reflexivity|].
  exists rel, f, fileInfo. auto.
Qed.

(** The whole walk: it uploads nothing itself, never fails on its own
    (the callback's error is its return value), and the slice it leaves
    holds, after what was there, one object per file, in walk order. *)
Lemma walk_spec visits : forall objects,
  let m := Platform.walk (Platform.walkFn b w zip) visits objects in
  Platform.uploads (trace m) = [] /\
  deferred m = [] /\
  (forall e, result_of m <> Fail e) /\
  (forall objects', result_of m = Return (objects', None) ->
     exists new, objects' = objects ++ new /\
       Forall2 (Platform.object_for b w zip) (Platform.files w visits) new) /\
  (forall objects' e, result_of m = Return (objects', Some e) ->
     exists new, objects' = objects ++ new /\
       Forall (fun o => exists path, Platform.object_for b w zip path o) new).
Proof.
  induction visits as [|[path err] rest IH]; intros objects; cbn.
  { do 2 (split; [reflexivity|]). split; [discriminate|]. split.
    - intros ? [= <-]. exists []. rewrite app_nil_r. auto.
    - intros ? ? [=]. }
  destruct (walkFn_spec objects path err) as (Hup & Hdef & Hret).
  unfold bind, invoke. cbn.
  destruct (Platform.walkFn b w zip objects path err) as [t d r]; cbn in *.
  destruct r as [objects1|e|p]; cbn.
  - specialize (IH objects1). cbn in IH.
    destruct (Platform.walk (Platform.walkFn b w zip) rest objects1)
      as [t2 d2 r2]; cbn in *.
    destruct IH as (IHup & IHdef & IHfail & IHok & IHerr).
    destruct (Hret _ eq_refl) as (-> & stat & Hstat & Hobj).
    rewrite uploads_app, Hup, IHup, IHdef, Hdef, Hstat.
    do 2 (split; [reflexivity|]). split; [assumption|]. split.
    + intros objects' H. destruct (IHok _ H) as (new & -> & Hnew).
      destruct (Os.IsDir stat).
      * subst objects1. exists new. auto.
      * destruct Hobj as (o & -> & Ho). exists (o :: new).
        rewrite <- app_assoc. split; [reflexivity|]. constructor; assumption.
    + intros objects' e H. destruct (IHerr _ _ H) as (new & -> & Hnew).
      destruct (Os.IsDir stat).
      * subst objects1. exists new. auto.
      * destruct Hobj as (o & -> & Ho). exists (o :: new).
        rewrite <- app_assoc. split; [reflexivity|].
        constructor; [exists path|]; assumption.
  - rewrite uploads_app, Hup, Hdef. do 2 (split; [reflexivity|]).
    split; [discriminate|]. split; [discriminate|].
    intros ? ? [= <- _]. exists []. rewrite app_nil_r. split; [reflexivity|constructor].
  - rewrite Hup, Hdef. do 2 (split; [reflexivity|]).
    split; [discriminate|]. split; discriminate.
Qed.
End Deploy.

(** How a deployment ends, by what the session and the walk return. *)
Lemma deploy_cases (b : Platform.Platform) (zip : Registry.Zip) (w : Platform.Env) :
  let out := run (Platform.deploy b zip w) in
  match Platform.NewSession w (Platform.Region (Platform.config b)) with
  | Error err =>
      Platform.uploads (fst out) = [] /\ snd out = Panic (PanicError err)
  | Value sess =>
      match Platform.walk_result b zip w with
      | Return (objects, None) =>
          Platform.uploads (fst out) = [objects] /\
          snd out = match Platform.UploadWithIterator w sess objects with
                    | None => Return Platform.EmptyDeployment
                    | Some err => Fail err
                    end
      | Return (objects, Some err) =>
          Platform.uploads (fst out) = [] /\ snd out = Fail err
      | Fail _ => False
      | Panic p =>
          Platform.uploads (fst out) = [] /\ snd out = Panic p
      end
  end.
Proof.
  unfold Platform.walk_result.
  destruct (walk_spec b w zip (Platform.Walk w (Registry.Path zip)) [])
    as (Hup & Hdef & Hfail & _).
  unfold run, Platform.deploy, Platform.Must, bind, check, emit, defer, ret, fail, panic.
  cbn.
  destruct (Platform.NewSession w (Platform.Region (Platform.config b)))
    as [sess|err]; cbn; [|auto].
  destruct (Platform.walk (Platform.walkFn b w zip)
              (Platform.Walk w (Registry.Path zip)) []) as [t d r]; cbn in *.
  subst d.
  destruct r as [[objects [err|]]|e|p]; cbn.
  - rewrite !uploads_app, Hup. auto.
  - destruct (Platform.UploadWithIterator w sess objects); cbn;
      rewrite !uploads_app, Hup; auto.
  - exact (Hfail e eq_refl).
  - rewrite !uploads_app, Hup. auto.
Qed.

Lemma in_uploads (objects : list Platform.BatchUploadObject) (tr : list Platform.event) :
  In (Platform.uploader_UploadWithIterator objects) tr ->
  In objects (Platform.uploads tr).
Proof.
  induction tr as [|e tr IH]; [intros []|].
  intros [->|H]; [left; reflexivity|].
  destruct e; cbn; auto.
Qed.

(** Before the session exists [deploy] has not started the walk. *)
Lemma deploy_walks_after_session
    (b : Platform.Platform) (zip : Registry.Zip) (w : Platform.Env) (root : string) :
  In (Platform.filepath_Walk root) (fst (run (Platform.deploy b zip w))) ->
  exists sess,
    Platform.NewSession w (Platform.Region (Platform.config b)) = Value sess.
Proof.
  unfold run, Platform.deploy, Platform.Must, bind, check, emit, defer, ret, fail, panic.
  cbn.
  destruct (Platform.NewSession w (Platform.Region (Platform.config b)))
    as [sess|err]; cbn; [eauto|].
  intuition discriminate.
Qed.

(** C1.  Once the walk of [zip.Path] has returned without error, [deploy]
    hands the collected objects to the batch uploader in a single call.
    The collection it hands over holds exactly one object per file the
    walk found (a path whose [os.Stat] is not a directory), in walk
    order, with [Key] the path relative to [zip.Path] and [Bucket] the
    configured [BucketName].  [deploy] never makes another upload call,
    and every deployment that returns a result has made this one. *)
Theorem deploy_uploads_one_object_per_file
    (b : Platform.Platform) (zip : Registry.Zip) (w : Platform.Env) :
  let out := run (Platform.deploy b zip w) in
  let root := Registry.Path zip in
  (forall objects,
     In (Platform.filepath_Walk root) (fst out) ->
     Platform.walk_result b zip w = Return (objects, None) ->
     Platform.uploads (fst out) = [objects]) /\
  (forall objects, In objects (Platform.uploads (fst out)) ->
     Platform.uploads (fst out) = [objects] /\
     Forall2
       (fun path o =>
          Platform.Rel w root path = Value (Platform.Key (Platform.Object o)) /\
          Platform.Bucket (Platform.Object o) =
            Platform.BucketName (Platform.config b))
       (Platform.files w (Platform.Walk w root)) objects) /\
  (forall d, snd out = Return d -> exists objects, Platform.uploads (fst out) = [objects]).
Proof.
  intros out root.
  pose proof (deploy_cases b zip w) as H. cbn zeta in H. fold out in H.
  destruct (walk_spec b w zip (Platform.Walk w (Registry.Path zip)) [])
    as (_ & _ & _ & Hok & _).
  fold (Platform.walk_result b zip w) in Hok.
  split.
  { intros objects Hwalk Hres.
    destruct (deploy_walks_after_session b zip w _ Hwalk) as [sess Hsess].
    rewrite Hsess, Hres in H. apply H. }
  destruct (Platform.NewSession w _) as [sess|err].
  2:{ destruct H as [-> ->]. split; [intros ? []|discriminate]. }
  destruct (Platform.walk_result b zip w) as [[objects [err|]]|e|p];
    try contradiction.
  1,3: destruct H as [-> ->]; split; [intros ? []|discriminate].
  destruct H as [Hu _]. rewrite Hu. split; [|eauto].
  intros objects' [<-|[]]. split; [reflexivity|].
  destruct (Hok _ eq_refl) as (new & -> & Hnew). cbn.
  eapply Forall2_impl; [|exact Hnew].
  intros path o (rel & f & fileInfo & Hrel & _ & _ & ->). cbn. auto.
Qed.

Lemma deploy_uploads_one_object_per_file_witness :
  Forall2
    (fun path o =>
       Platform.Rel site "/tmp/site" path = Value (Platform.Key (Platform.Object o)) /\
       Platform.Bucket (Platform.Object o) = "my-site")
    ["/tmp/site/css/main.css"; "/tmp/site/index.html"]
    (map (fun key =>
            {| Platform.Object :=
                 {| Platform.Key := key;
                    Platform.Bucket := "my-site";
                    Platform.Body := hi;
                    Platform.ACL := "public-read";
                    Platform.ContentType := "text/plain; charset=utf-8" |} |})
         ["css/main.css"; "index.html"]).
Proof.
  refine (proj2 (proj1 (proj2
            (deploy_uploads_one_object_per_file bucket artifact site)) _ _)).
  cbn. left. reflexivity.
Defined.

(** C8.  If [deploy] has started the walk and the walk returns an error,
    [deploy] returns exactly that error and never calls the batch
    uploader. *)
Theorem deploy_failed_walk_uploads_nothing
    (b : Platform.Platform) (zip : Registry.Zip) (w : Platform.Env)
    (objects : list Platform.BatchUploadObject) (err : error) :
  let out := run (Platform.deploy b zip w) in
  In (Platform.filepath_Walk (Registry.Path zip)) (fst out) ->
  Platform.walk_result b zip w = Return (objects, Some err) ->
  snd out = Fail err /\
  Platform.uploads (fst out) = [] /\
  forall queued, ~ In (Platform.uploader_UploadWithIterator queued) (fst out).
Proof.
  intros out Hwalk Hres.
  destruct (deploy_walks_after_session b zip w _ Hwalk) as [sess Hsess].
  pose proof (deploy_cases b zip w) as H. cbn zeta in H. fold out in H.
  rewrite Hsess, Hres in H. destruct H as [Hu Hr].
  repeat split; trivial.
  intros queued Hin. apply in_uploads in Hin. rewrite Hu in Hin. exact Hin.
Qed.

Lemma deploy_failed_walk_uploads_nothing_witness :
  snd (run (Platform.deploy bucket artifact unreadable)) =
    Fail (ExternalError "open /tmp/site/css: permission denied") /\
  Platform.uploads (fst (run (Platform.deploy bucket artifact unreadable))) = [].
Proof.
  destruct (deploy_failed_walk_uploads_nothing bucket artifact unreadable []
              (ExternalError "open /tmp/site/css: permission denied"))
    as (Hr & Hu & _).
  - cbn. intuition.
  - reflexivity.
  - split; assumption.
Defined.





(** ** What happens to the error of a failed call *)







(** C4 fails on the code: on a host where unpacking the copied archive
    fails, [build] has called [archive.CopyTo], the call has returned an
    error, and [build] still returns the directory as a result. *)
Theorem build_ignores_failed_unpack :
  let out := run (Builder.build site_builder web unpack_fails) in
  let srcInfo :=
    {| Archive.Path := "/app/dist";
       Archive.Exists := true;
       Archive.IsDir := true;
       Archive.RebaseName := "" |} in
  In (Builder.archive_CopyTo 4 srcInfo "/tmp/waypoint-plugin-s3123") (fst out) /\
  Builder.CopyTo unpack_fails 4 srcInfo "/tmp/waypoint-plugin-s3123" =
    Some (ExternalError "no space left on device") /\
  snd out = Return {| Builder.Path := "/tmp/waypoint-plugin-s3123" |}.
Proof.
  cbn. repeat split. intuition.
Qed.

(** ** Configuration checks *)

Lemma eqb_empty_false (s : string) : (s =? "")%string = false <-> s <> "".
Proof. apply String.eqb_neq. Qed.

Lemma platform_ConfigSet_accepts (p : Platform.Platform) (c : Platform.DeployConfig) :
  Platform.ConfigSet p (Is c) = None <->
  Platform.Region c <> "" /\ Platform.BucketName c <> "".
Proof.
  unfold Platform.ConfigSet.
  destruct (String.eqb_spec (Platform.Region c) "") as [Hr|Hr];
    [split; [discriminate|tauto]|].
  destruct (String.eqb_spec (Platform.BucketName c) "") as [Hb|Hb];
    [split; [discriminate|tauto]|].
  tauto.
Qed.

(** C6.  [Platform.ConfigSet] on a [DeployConfig] returns an error exactly
    when [Region] or [BucketName] is empty, and nil exactly when both are
    set; the error names the first field found empty. *)
Theorem platform_ConfigSet_error_iff (p : Platform.Platform) (c : Platform.DeployConfig) :
  ((exists e, Platform.ConfigSet p (Is c) = Some e) <->
   (Platform.Region c = "" \/ Platform.BucketName c = "")) /\
  (Platform.ConfigSet p (Is c) = None <->
   (Platform.Region c <> "" /\ Platform.BucketName c <> "")) /\
  (Platform.Region c = "" ->
   Platform.ConfigSet p (Is c) =
     Some (Errorf "region must be set to a valid AWS region" [])) /\
  (Platform.Region c <> "" -> Platform.BucketName c = "" ->
   Platform.ConfigSet p (Is c) =
     Some (Errorf "bucket_name must be set to a valid S3 bucket" [])).
Proof.
  split; [|split; [apply platform_ConfigSet_accepts|]].
  - pose proof (platform_ConfigSet_accepts p c) as H.
    destruct (Platform.ConfigSet p (Is c)) as [e|].
    + split; [intros _|eauto].
      destruct (string_dec (Platform.Region c) ""); [tauto|].
      destruct (string_dec (Platform.BucketName c) ""); [tauto|].
      assert (Some e = None) by (apply H; tauto). discriminate.
    + split; [intros [e He]; discriminate|].
      destruct H as [H _]. specialize (H eq_refl). tauto.
  - unfold Platform.ConfigSet. split.
    + intros ->. reflexivity.
    + intros Hr ->. apply eqb_empty_false in Hr. rewrite Hr. reflexivity.
Qed.

Lemma platform_ConfigSet_error_iff_witness :
  Platform.ConfigSet bucket
    (Is {| Platform.Region := ""; Platform.BucketName := "my-site" |}) =
    Some (Errorf "region must be set to a valid AWS region" []).
Proof.
  apply (proj1 (proj2 (proj2 (platform_ConfigSet_error_iff bucket
           {| Platform.Region := ""; Platform.BucketName := "my-site" |})))).
  reflexivity.
Defined.

(** C5, as the code has it.  [Platform.ConfigSet] accepts a configuration
    exactly when [Region] and [BucketName] are both non-empty;
    [Registry.ConfigSet] exactly when [Name] is non-empty, whatever
    [Version] is; the Docker-based [Builder.ConfigSet] accepts every
    [BuildConfig]; the other builder's [ConfigSet] accepts exactly when
    [OutputName] is non-empty and [os.Stat] succeeds on [Source]. *)
Theorem ConfigSet_checks
    (p : Platform.Platform) (pc : Platform.DeployConfig)
    (r : Registry.Registry) (rc : Registry.RegistryConfig)
    (d : Builder.Builder) (dc : Builder.BuildConfig)
    (l : BinaryBuilder.Builder) (lc : BinaryBuilder.BuildConfig)
    (w : BinaryBuilder.Env) :
  (Platform.ConfigSet p (Is pc) = None <->
   Platform.Region pc <> "" /\ Platform.BucketName pc <> "") /\
  (Registry.ConfigSet r (Is rc) = None <-> Registry.Name rc <> "") /\
  Builder.ConfigSet d (Is dc) = None /\
  (BinaryBuilder.ConfigSet l w (Is lc) = None <->
   BinaryBuilder.OutputName lc <> "" /\
   exists info, BinaryBuilder.Stat w (BinaryBuilder.Source lc) = Value info).
Proof.
  split; [apply platform_ConfigSet_accepts|].
  split; [|split; [reflexivity|]].
  - unfold Registry.ConfigSet.
    destruct (String.eqb_spec (Registry.Name rc) ""); split;
      solve [discriminate | tauto].
  - unfold BinaryBuilder.ConfigSet.
    destruct (String.eqb_spec (BinaryBuilder.OutputName lc) "") as [Ho|Ho];
      [split; [discriminate|tauto]|].
    destruct (BinaryBuilder.Stat w (BinaryBuilder.Source lc)) as [info|e].
    + split; eauto.
    + split; [discriminate|]. intros [_ [info H]]. discriminate H.
Qed.

(** C5 as stated fails: a registry configuration with an empty [Version]
    and a Docker builder configuration with every field empty are both
    accepted. *)
Lemma empty_fields_accepted_counterexample :
  Registry.Version {| Registry.Name := "site"; Registry.Version := "" |} = "" /\
  Registry.ConfigSet
    {| Registry.config := {| Registry.Name := ""; Registry.Version := "" |} |}
    (Is {| Registry.Name := "site"; Registry.Version := "" |}) = None /\
  Builder.ConfigSet site_builder
    (Is {| Builder.Source := ""; Builder.OutputName := ""; Builder.Dockerfile := "" |})
    = None.
Proof. repeat split. Qed.

(** ** The registry *)

(** C7.  [push] always returns, without error, a [Zip] whose path is the
    path of the artifact it was given; all it does besides is report its
    status to the UI. *)
Theorem push_returns_artifact_path (r : Registry.Registry) (binary : Builder.Zip) :
  run (Registry.push r binary) =
    ([Registry.ui_Status;
      Registry.u_Update "Pushing binary to registry";
      Registry.u_Close],
     Return {| Registry.Path := Builder.Path binary |}).
Proof. reflexivity. Qed.

(** * Further properties of the code *)

Import Hosts.

(** ** The Docker-based builder: cleanup and the arguments of its calls *)

Ltac here := cbn -[append]; repeat (first [left; reflexivity | right]); fail.

Ltac known := first [reflexivity | eassumption].

Ltac split_trace H :=
  repeat (destruct H as [H | H]; [try discriminate H|]); try contradiction.


(** [build_cases], with the pair returned by [CopyFromContainer] taken
    apart. *)
Ltac build_paths :=
  build_cases;
  repeat match goal with
         | p : (handle * bool)%type |- _ => destruct p
         end;
  cbn -[append] in *.

(** X2.  [build] closes the response body of the image build exactly when
    [ImageBuild] has returned one, and the archive copied out of the
    container exactly when [CopyFromContainer] has returned one: on every
    path, what was opened is closed and nothing else is. *)
Theorem build_closes_what_it_opened
    (b : Builder.Builder) (src : Component.Source) (w : Builder.Env) :
  let tr := fst (run (Builder.build b src w)) in
  (forall body,
     In (Builder.resp_Body_Close body) tr <->
     exists client buildCtx opts,
       Builder.NewClientWithOpts w = Value client /\
       In (Builder.dockerClient_ImageBuild buildCtx opts) tr /\
       Builder.ImageBuild w client buildCtx opts = Value body) /\
  (forall content,
     In (Builder.content_Close content) tr <->
     exists client containerID srcPath isDir,
       Builder.NewClientWithOpts w = Value client /\
       In (Builder.dockerClient_CopyFromContainer containerID srcPath) tr /\
       Builder.CopyFromContainer w client containerID srcPath =
         Value (content, isDir)).
Proof.
  build_paths.
  all: split; intros x; split.
  all: try (intros H; split_trace H;
            match type of H with
            | Builder.resp_Body_Close _ = _ => do 3 eexists
            | Builder.content_Close _ = _ => do 4 eexists
            end;
            injection H as <-;
            (split; [reflexivity|split; [here|eassumption]])).
  all: try (intros (client & buildCtx & opts & Hc & H & Hr); split_trace H;
            injection H as <- <-; cbn in *;
            first [ congruence
                  | match goal with
                    | Hk : Builder.ImageBuild _ _ _ _ = Value ?h |- _ =>
                        assert (x = h) as -> by congruence; here
                    end ]).
  all: intros (client & containerID & srcPath & isDir & Hc & H & Hr);
    split_trace H; injection H as <- <-; cbn in *;
    first [ congruence
          | match goal with
            | Hk : Builder.CopyFromContainer _ _ _ _ = Value (?h, _) |- _ =>
                assert (x = h) as -> by congruence; here
            end ].
Qed.

(** X3.  [build] removes a container exactly when it returns a result, and
    the container it removes, with [Force], is the one [ContainerCreate]
    returned.  So when copying out or the temporary directory fails, the
    container that was created is left behind. *)
Theorem build_removes_container_iff_done
    (b : Builder.Builder) (src : Component.Source) (w : Builder.Env) :
  let out := run (Builder.build b src w) in
  ((exists containerID opts,
      In (Builder.dockerClient_ContainerRemove containerID opts) (fst out)) <->
   (exists zip, snd out = Return zip)) /\
  (forall containerID opts,
     In (Builder.dockerClient_ContainerRemove containerID opts) (fst out) ->
     Types.Force opts = true /\
     exists client cfg,
       Builder.NewClientWithOpts w = Value client /\
       In (Builder.dockerClient_ContainerCreate cfg) (fst out) /\
       Builder.ContainerCreate w client cfg = Value containerID).
Proof.
  build_paths.
  all: split; [split|].
  all: try (intros (containerID & opts & H); split_trace H; eauto).
  all: try (intros (zip & H); first [discriminate H | do 2 eexists; here]).
  all: intros containerID opts H; split_trace H.
  all: injection H as <- <-; split; [reflexivity|].
  all: do 2 eexists; split; [reflexivity|split; [here|known]].
Qed.

Lemma build_removes_container_iff_done_witness :
  (forall containerID opts,
     ~ In (Builder.dockerClient_ContainerRemove containerID opts)
          (fst (run (Builder.build site_builder web copy_refused)))) /\
  In (Builder.dockerClient_ContainerCreate
        {| Container.Image := "waypoint.local/web";
           Container.Cmd := ["/bin/sh"];
           Container.Tty := false |})
     (fst (run (Builder.build site_builder web copy_refused))) /\
  Types.Force {| Types.Force := true |} = true.
Proof.
  split; [|split].
  - intros containerID opts H.
    destruct (proj1 (proj1 (build_removes_container_iff_done
                              site_builder web copy_refused))
                (ex_intro _ containerID (ex_intro _ opts H))) as [zip Hz].
    discriminate Hz.
  - cbn. intuition.
  - refine (proj1 (proj2 (build_removes_container_iff_done site_builder web sunny)
                     "c0ffee" _ _)).
    cbn. intuition.
Defined.

(** X4.  The container is created from the image that was just built: the
    image named in [ContainerCreate] is the single tag given to
    [ImageBuild], "waypoint.local/" followed by the application name, the
    build context is the archive of the application's source path, and
    the container's command is [/bin/sh] without a TTY. *)
Theorem build_creates_container_from_built_image
    (b : Builder.Builder) (src : Component.Source) (w : Builder.Env)
    (cfg : Container.Config) :
  let tr := fst (run (Builder.build b src w)) in
  In (Builder.dockerClient_ContainerCreate cfg) tr ->
  Container.Image cfg = ("waypoint.local/" ++ Component.App src)%string /\
  Container.Cmd cfg = ["/bin/sh"] /\
  Container.Tty cfg = false /\
  exists buildCtx opts,
    In (Builder.dockerClient_ImageBuild buildCtx opts) tr /\
    Types.Tags opts = [Container.Image cfg] /\
    Types.Remove opts = true /\
    Builder.TarWithOptions w (Component.Path src) = Value buildCtx.
Proof.
  build_paths.
  all: intros H; split_trace H; injection H as <-.
  all: do 3 (split; [reflexivity|]).
  all: do 2 eexists; split; [here|].
  all: split; [reflexivity|split; [reflexivity|known]].
Qed.

Lemma build_creates_container_from_built_image_witness :
  Container.Image
    {| Container.Image := "waypoint.local/web";
       Container.Cmd := ["/bin/sh"];
       Container.Tty := false |} = "waypoint.local/web".
Proof.
  refine (proj1 (build_creates_container_from_built_image
                   site_builder web sunny _ _)).
  cbn. intuition.
Defined.

(** X5.  The path [build] returns is the directory [os.MkdirTemp] created
    under the default temporary directory with the pattern
    "waypoint-plugin-s3", and it is the directory into which the archive
    copied from the configured [Source] path of the container was
    unpacked. *)
Theorem build_returns_unpack_directory
    (b : Builder.Builder) (src : Component.Source) (w : Builder.Env)
    (zip : Builder.Zip) :
  let out := run (Builder.build b src w) in
  let source := Builder.Source (Builder.config b) in
  snd out = Return zip ->
  Builder.MkdirTemp w "" "waypoint-plugin-s3" = Value (Builder.Path zip) /\
  exists client containerID content isDir,
    Builder.NewClientWithOpts w = Value client /\
    In (Builder.dockerClient_CopyFromContainer containerID source) (fst out) /\
    Builder.CopyFromContainer w client containerID source = Value (content, isDir) /\
    In (Builder.archive_CopyTo content
          {| Archive.Path := source;
             Archive.Exists := true;
             Archive.IsDir := isDir;
             Archive.RebaseName := "" |}
          (Builder.Path zip)) (fst out).
Proof.
  build_paths.
  all: intros H; try discriminate H; injection H as <-; cbn.
  all: split; [known|].
  all: do 4 eexists; split; [reflexivity|split; [here|split; [known|here]]].
Qed.

Lemma build_returns_unpack_directory_witness :
  Builder.MkdirTemp sunny "" "waypoint-plugin-s3" = Value "/tmp/waypoint-plugin-s3123".
Proof.
  refine (proj1 (build_returns_unpack_directory site_builder web sunny
                   {| Builder.Path := "/tmp/waypoint-plugin-s3123" |} _)).
  reflexivity.
Defined.

(** X6.  The configured [OutputName] has no effect on the Docker-based
    build: two builders that differ only in it make the same calls with
    the same arguments and end the same way. *)
Theorem build_ignores_output_name
    (source dockerfile name1 name2 : string)
    (src : Component.Source) (w : Builder.Env) :
  run (Builder.build
         {| Builder.config :=
              {| Builder.Source := source;
                 Builder.OutputName := name1;
                 Builder.Dockerfile := dockerfile |} |} src w) =
  run (Builder.build
         {| Builder.config :=
              {| Builder.Source := source;
                 Builder.OutputName := name2;
                 Builder.Dockerfile := dockerfile |} |} src w).
Proof. reflexivity. Qed.

(** X7.  What [archive.CopyTo] and [ContainerRemove] return never changes
    what [build] does: on two hosts that differ only in the answers to
    these two calls, [build] makes the same calls and ends the same
    way. *)
Theorem build_blind_to_unpack_and_removal
    (b : Builder.Builder) (src : Component.Source) (w : Builder.Env)
    (copyTo : handle -> Archive.CopyInfo -> string -> option error)
    (remove : handle -> string -> Types.ContainerRemoveOptions -> option error) :
  run (Builder.build b src (with_unpack w copyTo remove)) =
  run (Builder.build b src w).
Proof. reflexivity. Qed.

(** ** The platform: what a deployment calls, and in which order *)

Section DeployTrace.
Variables (b : Platform.Platform) (w : Platform.Env) (zip : Registry.Zip).

Lemma walkFn_calls objects path err :
  Forall (fun e => file_call e = true)
    (trace (Platform.walkFn b w zip objects path err)).
Proof.
  unfold Platform.walkFn, bind, try, emit, ret, fail, panic.
  destruct err as [e|]; cbn; [constructor|].
  destruct (Platform.Stat w path) as [stat|e]; cbn; [|repeat constructor].
  destruct (Os.IsDir stat); cbn; [repeat constructor|].
  destruct (Platform.Rel w (Registry.Path zip) path) as [rel|e]; cbn;
    [|repeat constructor].
  destruct (Platform.Open w path) as [f|e]; cbn; [|repeat constructor].
  destruct (Os.Stat f) as [fileInfo|e]; cbn; repeat constructor.
Qed.

Lemma walk_calls visits : forall objects,
  Forall (fun e => file_call e = true)
    (trace (Platform.walk (Platform.walkFn b w zip) visits objects)).
Proof.
  induction visits as [|[path err] rest IH]; intros objects; cbn; [constructor|].
  pose proof (walkFn_calls objects path err) as Hfn.
  unfold bind, invoke. cbn.
  destruct (Platform.walkFn b w zip objects path err) as [t d r]; cbn in *.
  destruct r as [objects1|e|p]; cbn; [|rewrite app_nil_r; exact Hfn|exact Hfn].
  specialize (IH objects1).
  destruct (Platform.walk (Platform.walkFn b w zip) rest objects1) as [t2 d2 r2].
  cbn in *. apply Forall_app. split; assumption.
Qed.

(** The calls of a deployment, in order. *)
Lemma deploy_trace :
  let region := Platform.Region (Platform.config b) in
  let walked :=
    Platform.walk (Platform.walkFn b w zip) (Platform.Walk w (Registry.Path zip)) [] in
  fst (run (Platform.deploy b zip w)) =
  match Platform.NewSession w region with
  | Error _ =>
      [Platform.ui_Status; Platform.u_Update "Deploy application";
       Platform.session_NewSession region; Platform.u_Close]
  | Value sess =>
      [Platform.ui_Status; Platform.u_Update "Deploy application";
       Platform.session_NewSession region; Platform.s3manager_NewUploader sess;
       Platform.filepath_Walk (Registry.Path zip)]
      ++ trace walked
      ++ match result_of walked with
         | Return (objects, None) =>
             Platform.uploader_UploadWithIterator objects ::
             match Platform.UploadWithIterator w sess objects with
             | None => [Platform.u_Update "Application deployed"]
             | Some _ => []
             end
         | _ => []
         end
      ++ [Platform.u_Close]
  end.
Proof.
  intros region walked. subst region walked.
  destruct (walk_spec b w zip (Platform.Walk w (Registry.Path zip)) [])
    as (_ & Hdef & _).
  unfold run, Platform.deploy, Platform.Must, bind, check, emit, defer, ret, fail, panic.
  cbn.
  destruct (Platform.NewSession w (Platform.Region (Platform.config b)))
    as [sess|err]; cbn; [|reflexivity].
  destruct (Platform.walk (Platform.walkFn b w zip)
              (Platform.Walk w (Registry.Path zip)) []) as [t d r]; cbn in *.
  subst d.
  destruct r as [[objects [err|]]|e|p]; cbn;
    rewrite <- ?app_assoc; cbn; try reflexivity.
  destruct (Platform.UploadWithIterator w sess objects); cbn;
    rewrite <- ?app_assoc; reflexivity.
Qed.

(** An event that is not a file call, found in the trace of a deployment,
    is one of the calls [deploy] makes itself. *)
Lemma deploy_own_call (e : Platform.event) :
  file_call e = false ->
  In e (fst (run (Platform.deploy b zip w))) ->
  let region := Platform.Region (Platform.config b) in
  e = Platform.ui_Status \/
  e = Platform.u_Update "Deploy application" \/
  e = Platform.session_NewSession region \/
  e = Platform.u_Close \/
  exists sess,
    Platform.NewSession w region = Value sess /\
    (e = Platform.s3manager_NewUploader sess \/
     e = Platform.filepath_Walk (Registry.Path zip) \/
     exists objects,
       Platform.walk_result b zip w = Return (objects, None) /\
       (e = Platform.uploader_UploadWithIterator objects \/
        e = Platform.u_Update "Application deployed" /\
        Platform.UploadWithIterator w sess objects = None)).
Proof.
  intros Hnot Hin region. rewrite deploy_trace in Hin. fold region in Hin.
  unfold Platform.walk_result.
  destruct (Platform.NewSession w region) as [sess|err].
  2:{ cbn in Hin. intuition. }
  cbn in Hin.
  destruct Hin as [<-|[<-|[<-|[<-|[<-|Hin]]]]].
  1-5: first [ solve [auto 6]
             | do 4 right; exists sess; split; [reflexivity|auto] ].
  apply in_app_or in Hin. destruct Hin as [Hin|Hin].
  { pose proof (walk_calls (Platform.Walk w (Registry.Path zip)) []) as Hc.
    rewrite Forall_forall in Hc. rewrite (Hc _ Hin) in Hnot. discriminate. }
  apply in_app_or in Hin. destruct Hin as [Hin|[<-|[]]]; [|auto].
  do 4 right. exists sess. split; [reflexivity|]. do 2 right.
  destruct (result_of _) as [[objects [err|]]|e'|p]; cbn in Hin;
    try contradiction.
  exists objects. split; [reflexivity|].
  destruct Hin as [<-|Hin]; [auto|].
  destruct (Platform.UploadWithIterator w sess objects); cbn in Hin;
    [contradiction|].
  destruct Hin as [<-|[]]. auto.
Qed.
End DeployTrace.

(** X8.  However a deployment ends, also by a panic, its last call closes
    the UI status; and the status says "Application deployed" exactly
    when [deploy] returns a result. *)
Theorem deploy_closes_status_and_reports_success
    (b : Platform.Platform) (zip : Registry.Zip) (w : Platform.Env) :
  let out := run (Platform.deploy b zip w) in
  last (fst out) Platform.ui_Status = Platform.u_Close /\
  (In (Platform.u_Update "Application deployed") (fst out) <->
   exists d, snd out = Return d).
Proof.
  intros out. split.
  - subst out. rewrite deploy_trace.
    destruct (Platform.NewSession w _) as [sess|err]; [|reflexivity].
    rewrite !app_assoc. apply last_last.
  - pose proof (deploy_cases b zip w) as H. cbn zeta in H. fold out in H.
    split.
    + intros Hin.
      apply deploy_own_call in Hin; [|reflexivity].
      destruct Hin as [Hin|[Hin|[Hin|[Hin|Hin]]]]; try discriminate Hin.
      destruct Hin as (sess & Hsess & [Hin|[Hin|Hin]]); try discriminate Hin.
      destruct Hin as (objects & Hres & [Hin|[_ Hup]]); try discriminate Hin.
      rewrite Hsess, Hres, Hup in H. destruct H as [_ ->]. eauto.
    + intros [d Hd]. subst out. rewrite deploy_trace.
      destruct (Platform.NewSession w _) as [sess|err];
        [|destruct H as [_ H]; rewrite H in Hd; discriminate Hd].
      unfold Platform.walk_result in H.
      destruct (result_of _) as [[objects [err|]]|e|p];
        try contradiction;
        try (destruct H as [_ H]; rewrite H in Hd; discriminate Hd).
      destruct H as [_ H]. rewrite H in Hd.
      destruct (Platform.UploadWithIterator w sess objects); [discriminate Hd|].
      apply in_or_app. right. apply in_or_app. right. cbn. auto.
Qed.

Lemma Forall2_right_from_left {A B : Type} (R : A -> B -> Prop) (l : list A) (l' : list B) :
  Forall2 R l l' -> Forall (fun y => exists x, In x l /\ R x y) l'.
Proof.
  induction 1 as [|x y l l' Hxy _ IH]; constructor.
  - exists x. split; [left; reflexivity|assumption].
  - eapply Forall_impl; [|exact IH].
    intros y' (x' & Hin & Hr). exists x'. split; [right|]; assumption.
Qed.

(** Every object handed to the batch uploader was built by the callback
    for one of the files of the walk. *)
Lemma uploaded_object_for
    (b : Platform.Platform) (zip : Registry.Zip) (w : Platform.Env)
    (objects : list Platform.BatchUploadObject) :
  In objects (Platform.uploads (fst (run (Platform.deploy b zip w)))) ->
  Forall (fun o => exists path,
            In path (Platform.files w (Platform.Walk w (Registry.Path zip))) /\
            Platform.object_for b w zip path o) objects.
Proof.
  intros Hin.
  pose proof (deploy_cases b zip w) as H. cbn zeta in H.
  destruct (walk_spec b w zip (Platform.Walk w (Registry.Path zip)) [])
    as (_ & _ & _ & Hok & _).
  fold (Platform.walk_result b zip w) in Hok.
  destruct (Platform.NewSession w _) as [sess|e].
  2:{ destruct H as [Hu _]. rewrite Hu in Hin. destruct Hin. }
  destruct (Platform.walk_result b zip w) as [[queued [e|]]|e|p];
    try contradiction.
  1,3: destruct H as [Hu _]; rewrite Hu in Hin; destruct Hin.
  destruct H as [Hu _]. rewrite Hu in Hin. destruct Hin as [<-|[]].
  destruct (Hok _ eq_refl) as (new & -> & Hnew). cbn.
  apply Forall2_right_from_left. exact Hnew.
Qed.






(** X10.  When the walk finds no file (an empty directory tree), [deploy]
    does not skip the upload: it hands the batch uploader an empty
    collection, and a deployment that returns a result has made exactly
    that one call. *)
Theorem deploy_without_files_uploads_empty
    (b : Platform.Platform) (zip : Registry.Zip) (w : Platform.Env) :
  let out := run (Platform.deploy b zip w) in
  Platform.files w (Platform.Walk w (Registry.Path zip)) = [] ->
  (forall objects, In objects (Platform.uploads (fst out)) -> objects = []) /\
  (forall d, snd out = Return d -> Platform.uploads (fst out) = [[]]).
Proof.
  intros out Hfiles.
  assert (Hempty : forall objects,
             In objects (Platform.uploads (fst out)) -> objects = []).
  { intros objects Hin.
    pose proof (uploaded_object_for b zip w objects Hin) as Hall.
    rewrite Hfiles in Hall.
    destruct objects as [|o rest]; [reflexivity|].
    inversion Hall as [|? ? (path & [] & _) _]. }
  split; [exact Hempty|].
  intros d Hd.
  pose proof (deploy_cases b zip w) as H. cbn zeta in H. fold out in H.
  destruct (Platform.NewSession w _) as [sess|err];
    [|destruct H as [_ H]; rewrite H in Hd; discriminate Hd].
  destruct (Platform.walk_result b zip w) as [[objects [err|]]|e|p];
    try contradiction;
    try (destruct H as [_ H]; rewrite H in Hd; discriminate Hd).
  destruct H as [Hu _].
  rewrite Hu in *. rewrite (Hempty objects (or_introl eq_refl)). reflexivity.
Qed.

Lemma deploy_without_files_uploads_empty_witness :
  Platform.uploads (fst (run (Platform.deploy bucket artifact bare))) = [[]].
Proof.
  refine (proj2 (deploy_without_files_uploads_empty bucket artifact bare _)
            Platform.EmptyDeployment _); reflexivity.
Defined.

Section StatPanic.
Variables (b : Platform.Platform) (w : Platform.Env) (zip : Registry.Zip).
Variables (path : string) (f : Os.File) (e : error).
Hypothesis Hopen : Platform.Open w path = Value f.
Hypothesis Hstat : Os.Stat f = Error e.

Lemma walkFn_stat_panics objects p err :
  In (Platform.f_Stat path) (trace (Platform.walkFn b w zip objects p err)) ->
  result_of (Platform.walkFn b w zip objects p err) =
    Panic (RuntimeError "invalid memory address or nil pointer dereference").
Proof.
  unfold Platform.walkFn, bind, try, emit, ret, fail, panic.
  destruct err as [err|]; cbn; [intros []|].
  destruct (Platform.Stat w p) as [stat|err]; cbn; [|intuition discriminate].
  destruct (Os.IsDir stat); cbn; [intuition discriminate|].
  destruct (Platform.Rel w (Registry.Path zip) p) as [rel|err]; cbn;
    [|intuition discriminate].
  destruct (Platform.Open w p) as [f'|err] eqn:Hopen'; cbn;
    [|intuition discriminate].
  destruct (Os.Stat f') as [fileInfo|err] eqn:Hstat'; cbn; [|reflexivity].
  intros Hin. split_trace Hin. injection Hin as ->.
  congruence.
Qed.

Lemma walk_stat_panics visits : forall objects,
  In (Platform.f_Stat path)
     (trace (Platform.walk (Platform.walkFn b w zip) visits objects)) ->
  result_of (Platform.walk (Platform.walkFn b w zip) visits objects) =
    Panic (RuntimeError "invalid memory address or nil pointer dereference").
Proof.
  induction visits as [|[p err] rest IH]; intros objects; cbn; [intros []|].
  pose proof (walkFn_stat_panics objects p err) as Hfn.
  unfold bind, invoke. cbn.
  destruct (Platform.walkFn b w zip objects p err) as [t d r]; cbn in *.
  destruct r as [objects1|e'|pv]; cbn.
  - specialize (IH objects1).
    destruct (Platform.walk (Platform.walkFn b w zip) rest objects1) as [t2 d2 r2].
    cbn in *. intros Hin. apply in_app_or in Hin.
    destruct Hin as [Hin|Hin]; [discriminate (Hfn Hin)|exact (IH Hin)].
  - rewrite app_nil_r. intros Hin. discriminate (Hfn Hin).
  - intros Hin. injection (Hfn Hin) as ->. reflexivity.
Qed.
End StatPanic.

(** X11.  If [f.Stat] fails on a file the callback has opened, [deploy]
    neither returns an error nor skips the file: it panics on the nil
    [FileInfo], and nothing is uploaded. *)
Theorem deploy_panics_when_file_stat_fails
    (b : Platform.Platform) (zip : Registry.Zip) (w : Platform.Env)
    (path : string) (f : Os.File) (e : error) :
  let out := run (Platform.deploy b zip w) in
  In (Platform.f_Stat path) (fst out) ->
  Platform.Open w path = Value f ->
  Os.Stat f = Error e ->
  snd out = Panic (RuntimeError "invalid memory address or nil pointer dereference") /\
  Platform.uploads (fst out) = [].
Proof.
  intros out Hin Hopen Hstat.
  pose proof (deploy_cases b zip w) as H. cbn zeta in H. fold out in H.
  subst out. rewrite deploy_trace in Hin.
  unfold Platform.walk_result in H.
  destruct (Platform.NewSession w _) as [sess|err].
  2:{ cbn in Hin. intuition discriminate. }
  apply in_app_or in Hin. destruct Hin as [Hin|Hin];
    [cbn in Hin; intuition discriminate|].
  apply in_app_or in Hin. destruct Hin as [Hin|Hin].
  - rewrite (walk_stat_panics b w zip path f e Hopen Hstat _ _ Hin) in H.
    destruct H as [Hu Hr]. auto.
  - exfalso. apply in_app_or in Hin.
    destruct Hin as [Hin|Hin]; [|cbn in Hin; intuition discriminate].
    destruct (result_of _) as [[objects [err|]]|e'|p]; cbn in Hin;
      try contradiction.
    destruct Hin as [Hin|Hin]; [discriminate Hin|].
    destruct (Platform.UploadWithIterator w sess objects); cbn in Hin;
      intuition discriminate.
Qed.

Lemma deploy_panics_when_file_stat_fails_witness :
  snd (run (Platform.deploy bucket artifact stat_refused)) =
    Panic (RuntimeError "invalid memory address or nil pointer dereference").
Proof.
  refine (proj1 (deploy_panics_when_file_stat_fails bucket artifact stat_refused
                   "/tmp/site/css/main.css" _
                   (ExternalError "stat: input/output error") _ _ _)).
  - cbn. intuition.
  - reflexivity.
  - reflexivity.
Defined.

(** X12.  With a configuration that [ConfigSet] has accepted, [deploy]
    asks for a session in a non-empty region and gives every object it
    uploads the configured, non-empty bucket. *)
Theorem deploy_uses_validated_config
    (p : Platform.Platform) (zip : Registry.Zip) (w : Platform.Env) :
  let tr := fst (run (Platform.deploy p zip w)) in
  Platform.ConfigSet p (Is (Platform.config p)) = None ->
  (forall region, In (Platform.session_NewSession region) tr ->
     region = Platform.Region (Platform.config p) /\ region <> "") /\
  (forall objects o, In objects (Platform.uploads tr) -> In o objects ->
     Platform.Bucket (Platform.Object o) = Platform.BucketName (Platform.config p) /\
     Platform.Bucket (Platform.Object o) <> "").
Proof.
  intros tr Hok. apply platform_ConfigSet_accepts in Hok. destruct Hok as [Hr Hb].
  split.
  - intros region Hin. apply deploy_own_call in Hin; [|reflexivity].
    destruct Hin as [Hin|[Hin|[Hin|[Hin|Hin]]]]; try discriminate Hin.
    + injection Hin as ->. auto.
    + destruct Hin as (sess & _ & [Hin|[Hin|Hin]]); try discriminate Hin.
      destruct Hin as (objects & _ & [Hin|[Hin _]]); discriminate Hin.
  - intros objects o Hin Ho.
    pose proof (uploaded_object_for p zip w objects Hin) as Hall.
    rewrite Forall_forall in Hall.
    destruct (Hall o Ho) as (path & _ & rel & f & fileInfo & _ & _ & _ & Hobj).
    rewrite Hobj. cbn. auto.
Qed.

Lemma deploy_uses_validated_config_witness :
  "eu-west-1" = Platform.Region (Platform.config bucket) /\ "eu-west-1" <> "".
Proof.
  refine (proj1 (deploy_uses_validated_config bucket artifact site _) _ _).
  - reflexivity.
  - cbn. intuition.
Defined.

(** ** From the build to the deployment *)

Lemma build_result_in_tmpdir
    (b : Builder.Builder) (src : Component.Source) (w : Builder.Env)
    (zip : Builder.Zip) :
  snd (run (Builder.build b src w)) = Return zip ->
  Builder.MkdirTemp w "" "waypoint-plugin-s3" = Value (Builder.Path zip).
Proof.
  build_paths.
  all: intros H; try discriminate H; injection H as <-; reflexivity.
Qed.

(** X13.  When the result of [build] is pushed and the result of [push] is
    deployed, the directory [deploy] walks is the temporary directory
    [build] created and unpacked the container's files into. *)
Theorem deploy_walks_built_directory
    (b : Builder.Builder) (src : Component.Source) (w : Builder.Env)
    (r : Registry.Registry) (p : Platform.Platform) (v : Platform.Env)
    (built : Builder.Zip) (pushed : Registry.Zip) (root : string) :
  snd (run (Builder.build b src w)) = Return built ->
  snd (run (Registry.push r built)) = Return pushed ->
  In (Platform.filepath_Walk root) (fst (run (Platform.deploy p pushed v))) ->
  Builder.MkdirTemp w "" "waypoint-plugin-s3" = Value root.
Proof.
  intros Hbuilt Hpushed Hin.
  apply build_result_in_tmpdir in Hbuilt.
  cbn in Hpushed. injection Hpushed as <-.
  apply deploy_own_call in Hin; [|reflexivity].
  destruct Hin as [Hin|[Hin|[Hin|[Hin|Hin]]]]; try discriminate Hin.
  destruct Hin as (sess & _ & [Hin|[Hin|Hin]]); try discriminate Hin.
  - injection Hin as ->. exact Hbuilt.
  - destruct Hin as (objects & _ & [Hin|[Hin _]]); discriminate Hin.
Qed.

Lemma deploy_walks_built_directory_witness :
  Builder.MkdirTemp sunny "" "waypoint-plugin-s3" = Value "/tmp/waypoint-plugin-s3123".
Proof.
  refine (deploy_walks_built_directory site_builder web sunny
            {| Registry.config := {| Registry.Name := "site"; Registry.Version := "1" |} |}
            bucket site
            {| Builder.Path := "/tmp/waypoint-plugin-s3123" |}
            {| Registry.Path := "/tmp/waypoint-plugin-s3123" |}
            "/tmp/waypoint-plugin-s3123" _ _ _).
  - reflexivity.
  - reflexivity.
  - cbn. intuition.
Defined.

(** ** The Docker-based builder: streaming the build log *)

(** X14.  What [build] streams to the terminal is the response body of
    the image build it has just started, and the terminal descriptor it
    passes is that of stdout when stdout is an [os.File] and 0 when it is
    any other writer. *)
Theorem build_streams_image_build_log
    (b : Builder.Builder) (src : Component.Source) (w : Builder.Env)
    (body : handle) (termFd : nat) :
  let tr := fst (run (Builder.build b src w)) in
  In (Builder.jsonmessage_DisplayJSONMessagesStream body termFd) tr ->
  (exists client buildCtx opts,
     Builder.NewClientWithOpts w = Value client /\
     In (Builder.dockerClient_ImageBuild buildCtx opts) tr /\
     Builder.ImageBuild w client buildCtx opts = Value body) /\
  (forall fd, Builder.OutputWriters w = Value (Builder.OsFile fd) -> termFd = fd) /\
  (Builder.OutputWriters w = Value Builder.OtherWriter -> termFd = 0).
Proof.
  build_paths.
  all: intros H; split_trace H; injection H as <- <-.
  all: split; [do 3 eexists; split; [reflexivity|split; [here|known]]|].
  all: split; [intros fd [= ->]|intros [= ->]]; reflexivity.
Qed.

Lemma build_streams_image_build_log_witness :
  (exists client buildCtx opts,
     Builder.NewClientWithOpts copy_refused = Value client /\
     In (Builder.dockerClient_ImageBuild buildCtx opts)
        (fst (run (Builder.build site_builder web copy_refused))) /\
     Builder.ImageBuild copy_refused client buildCtx opts = Value 3) /\
  0 = 0.
Proof.
  destruct (build_streams_image_build_log site_builder web copy_refused 3 0)
    as (Hbody & _ & Hfd).
  - cbn. intuition.
  - split; [exact Hbody|]. apply Hfd. reflexivity.
Defined.
